(** * Admin entities listing page: filter state, query options and
      column projection of [src/app/admin/entities/page.tsx]

    The page is a React function component.  Its three [useState] cells
    are the filter state, the options object handed to [useQuery] holds
    the cache key and the fetch function, and the returned JSX is a pure
    function of the filter state, of the query hook's output and of the
    permission gate.  The embedding keeps that shape: strings are byte
    strings, JavaScript objects used as lookup tables are finite maps
    with the prototype chain written out, and the JSX is a small tree. *)

From Stdlib Require Import Ascii String.
From stdpp Require Import base decidable option list strings gmap pretty.

Open Scope string_scope.
Open Scope nat_scope.

(** ** JavaScript values that reach the page *)

Module Js.

(** The values an expression of this page can evaluate to. *)
Inductive value : Type :=
| Undefined
| Str (s : string)
| NativeFunction (fname : string)
| ObjectPrototype.

#[global] Instance value_eq_dec : EqDecision value.
Proof. solve_decision. Defined.

(** ToBoolean: [undefined] and the empty string are falsy, objects and
    functions are truthy. *)
Definition truthy (v : value) : bool :=
  match v with
  | Undefined => false
  | Str s => bool_decide (s ≠ "")
  | NativeFunction _ => true
  | ObjectPrototype => true
  end.

(** [a || b] *)
Definition or (a b : value) : value := if truthy a then a else b.

(** An optional property [x?: string] read from a record. *)
Definition of_optional (o : option string) : value :=
  match o with
  | Some s => Str s
  | None => Undefined
  end.

(** ToString, as a template literal applies it.  A built-in function
    prints in the NativeFunction form. *)
Definition to_string (v : value) : string :=
  match v with
  | Undefined => "undefined"
  | Str s => s
  | NativeFunction f => "function " +:+ f +:+ "() { [native code] }"
  | ObjectPrototype => "[object Object]"
  end.

(** The function-valued properties every object literal inherits from
    [Object.prototype], with the name of the function each one holds. *)
Definition prototype_methods : gmap string string :=
  list_to_map
    [ ("constructor", "Object");
      ("hasOwnProperty", "hasOwnProperty");
      ("isPrototypeOf", "isPrototypeOf");
      ("propertyIsEnumerable", "propertyIsEnumerable");
      ("toLocaleString", "toLocaleString");
      ("toString", "toString");
      ("valueOf", "valueOf");
      ("__defineGetter__", "__defineGetter__");
      ("__defineSetter__", "__defineSetter__");
      ("__lookupGetter__", "__lookupGetter__");
      ("__lookupSetter__", "__lookupSetter__") ].

(** A property read that reached [Object.prototype]; [__proto__] is the
    accessor that answers the receiver's prototype. *)
Definition prototype_get (k : string) : value :=
  match prototype_methods !! k with
  | Some f => NativeFunction f
  | None => if decide (k = "__proto__") then ObjectPrototype else Undefined
  end.

(** [obj[k]] for an object literal [obj] whose own properties are the
    string-valued table [own]: own properties first, then the
    prototype. *)
Definition get (own : gmap string string) (k : string) : value :=
  match own !! k with
  | Some s => Str s
  | None => prototype_get k
  end.

End Js.

(** ** Data model *)

Record Registration : Type := mkRegistration
  { reg_type : string;
    reg_status : string }.

Record Entity : Type := mkEntity
  { id : string;
    name : string;
    country : string;
    status : string;
    legalForm : option string;
    createdAt : string;
    registrations : list Registration }.

#[global] Instance Registration_eq_dec : EqDecision Registration.
Proof. solve_decision. Defined.

#[global] Instance Entity_eq_dec : EqDecision Entity.
Proof. solve_decision. Defined.

(** ** Column projection *)

(** What a link wraps: the entity name, or the ghost button holding the
    chevron icon. *)
Inductive LinkChild : Type :=
| LinkText (s : string)
| ChevronButton.

(** The content a column's [cell] function returns. *)
Inductive Cell : Type :=
| CLink (href : string) (child : LinkChild)
| CValue (v : Js.value)
| CBadge (className : string) (text : string).

Record Column : Type := mkColumn
  { col_id : string;
    header : string;
    cell : Entity -> Cell }.

Definition countryMap : gmap string string :=
  {[ "AE" := "🇦🇪 UAE"; "SA" := "🇸🇦 KSA"; "EG" := "🇪🇬 Egypt" ]}.

Definition statusStyles : gmap string string :=
  {[ "ACTIVE" := "bg-green-100 text-green-800";
     "PENDING" := "bg-yellow-100 text-yellow-800";
     "ARCHIVED" := "bg-gray-100 text-gray-800" ]}.

Definition detailHref (e : Entity) : string := "/admin/entities/" +:+ id e.

Definition nameCell (e : Entity) : Cell := CLink (detailHref e) (LinkText (name e)).

Definition countryValue (e : Entity) : Js.value :=
  Js.or (Js.get countryMap (country e)) (Js.Str (country e)).

Definition countryCell (e : Entity) : Cell := CValue (countryValue e).

Definition legalFormValue (e : Entity) : Js.value :=
  Js.or (Js.of_optional (legalForm e)) (Js.Str "—").

Definition legalFormCell (e : Entity) : Cell := CValue (legalFormValue e).

Definition statusClassName (e : Entity) : string :=
  "px-2 py-1 rounded text-sm font-medium "
  +:+ Js.to_string (Js.or (Js.get statusStyles (status e))
                          (Js.Str "bg-gray-100 text-gray-800")).

Definition statusCell (e : Entity) : Cell := CBadge (statusClassName e) (status e).

Definition verifiedCount (e : Entity) : nat :=
  length (filter (λ r, reg_status r = "VERIFIED") (registrations e)).

Definition registrationsText (e : Entity) : string :=
  pretty (verifiedCount e) +:+ "/" +:+ pretty (length (registrations e)).

Definition registrationsCell (e : Entity) : Cell := CValue (Js.Str (registrationsText e)).

Definition actionsCell (e : Entity) : Cell := CLink (detailHref e) ChevronButton.

(** ** Filter state *)

Record Filters : Type := mkFilters
  { searchTerm : string;
    countryFilter : string;
    statusFilter : string }.

#[global] Instance Filters_eq_dec : EqDecision Filters.
Proof. solve_decision. Defined.

(** The three [useState("")] cells on first render. *)
Definition initialFilters : Filters := mkFilters "" "" "".

Definition setSearchTerm (v : string) (f : Filters) : Filters :=
  mkFilters v (countryFilter f) (statusFilter f).

Definition setCountryFilter (v : string) (f : Filters) : Filters :=
  mkFilters (searchTerm f) v (statusFilter f).

Definition setStatusFilter (v : string) (f : Filters) : Filters :=
  mkFilters (searchTerm f) (countryFilter f) v.

Definition handleSearch (v : string) (f : Filters) : Filters := setSearchTerm v f.

(** ** Query options: cache key and fetch function *)

Definition queryKey (f : Filters) : list string :=
  ["entities"; searchTerm f; countryFilter f; statusFilter f].

(** [...(v && { k: v })] inside an object literal: a falsy [v] spreads
    nothing, otherwise the one property [k: v] is added. *)
Definition spreadWhen (k v : string) : list (string * string) :=
  if decide (v = "") then [] else [(k, v)].

(** The record given to [new URLSearchParams], as its list of pairs in
    property order. *)
Definition searchParams (f : Filters) : list (string * string) :=
  spreadWhen "search" (searchTerm f)
  ++ spreadWhen "country" (countryFilter f)
  ++ spreadWhen "status" (statusFilter f).

Module UrlEncoded.

(** Bytes the application/x-www-form-urlencoded serializer leaves as
    they are: ASCII letters and digits and the four marks [* - . _]. *)
Definition unreserved (c : ascii) : bool :=
  let n := N_of_ascii c in
  ((48 <=? n) && (n <=? 57) || (65 <=? n) && (n <=? 90)
   || (97 <=? n) && (n <=? 122)
   || (n =? 42) || (n =? 45) || (n =? 46) || (n =? 95))%N.

Definition hexDigit (n : N) : ascii :=
  ascii_of_N (if (n <? 10)%N then 48 + n else 55 + n).

Definition encodeByte (c : ascii) : string :=
  if unreserved c then String c ""
  else if bool_decide (c = " "%char) then "+"
  else
    let n := N_of_ascii c in
    String "%" (String (hexDigit (n / 16)) (String (hexDigit (n mod 16)) "")).

Fixpoint encode (s : string) : string :=
  match s with
  | "" => ""
  | String c rest => encodeByte c +:+ encode rest
  end.

Definition pair (p : string * string) : string :=
  encode p.1 +:+ "=" +:+ encode p.2.

(** [URLSearchParams.prototype.toString] *)
Fixpoint serialize (ps : list (string * string)) : string :=
  match ps with
  | [] => ""
  | [p] => pair p
  | p :: rest => pair p +:+ "&" +:+ serialize rest
  end.

End UrlEncoded.

Definition requestUrl (f : Filters) : string :=
  "/api/entities?" +:+ UrlEncoded.serialize (searchParams f).

Record Error : Type := mkError { message : string }.

#[global] Instance Error_eq_dec : EqDecision Error.
Proof. solve_decision. Defined.

(** A promise that has settled: rejected with an error or fulfilled. *)
Definition Settled (A : Type) : Type := (Error + A)%type.

Definition throw {A : Type} (e : Error) : Settled A := inl e.
Definition resolve {A : Type} (a : A) : Settled A := inr a.

(** [await p] followed by the rest of the async function: a rejection
    leaves the function at once. *)
#[global] Instance Settled_bind : MBind Settled :=
  λ A B k p, match p with inl e => inl e | inr a => k a end.

(** An HTTP response as the page reads it: the status code, and what
    [(await response.json()).data] evaluates to (or throws). *)
Record Response : Type := mkResponse
  { http_status : nat;
    json_data : Settled (option (list Entity)) }.

(** [response.ok]: the status is in the range 200 to 299. *)
Definition ok (r : Response) : bool :=
  bool_decide (200 ≤ http_status r ≤ 299).

Definition fetchFailed : Error := mkError "Failed to fetch entities".

Definition queryFn (fetch : string -> Settled Response) (f : Filters)
  : Settled (option (list Entity)) :=
  response ← fetch (requestUrl f);
  if negb (ok response) then throw fetchFailed
  else
    result_data ← json_data response;
    resolve result_data.

Definition staleTime : N := 30000%N.

(** ** What the query hook hands back to the page *)

Record QueryResult : Type := mkQueryResult
  { data : option (list Entity);
    isLoading : bool;
    error : option Error }.

(** [data: entities = []] *)
Definition entitiesOf (q : QueryResult) : list Entity := default [] (data q).

(** Modelled from the spec: the Query Cache Layer behind [useQuery] is the
    external query library, absent from the sources.  Section 4.3 gives
    its entry [{ records, loading, error? }] and the two commits: success
    replaces [records] and clears the error, failure preserves [records]
    and sets the error. *)
Record CacheEntry : Type := mkCacheEntry
  { records : list Entity;
    loading : bool;
    entryError : option Error }.

Definition freshEntry : CacheEntry := mkCacheEntry [] true None.

Definition commitSuccess (rs : list Entity) (c : CacheEntry) : CacheEntry :=
  mkCacheEntry rs false None.

Definition commitFailure (e : Error) (c : CacheEntry) : CacheEntry :=
  mkCacheEntry (records c) false (Some e).

(** Modelled from the spec: the outcome of the fetch function is committed
    to the entry of the key it was issued for; other keys are untouched. *)
Definition commit (key : list string) (outcome : Settled (option (list Entity)))
    (cache : gmap (list string) CacheEntry) : gmap (list string) CacheEntry :=
  let entry := default freshEntry (cache !! key) in
  match outcome with
  | inl e => <[key := commitFailure e entry]> cache
  | inr d => <[key := commitSuccess (default [] d) entry]> cache
  end.

(** Modelled from the spec: [fetch(filters) -> { data, isLoading, error? }]
    reads the entry of the active key; a key never seen is loading. *)
Definition useQuery (cache : gmap (list string) CacheEntry) (f : Filters) : QueryResult :=
  match cache !! queryKey f with
  | Some c => mkQueryResult (Some (records c)) (loading c) (entryError c)
  | None => mkQueryResult None true None
  end.

(** ** The rendered tree *)

Record LinkButton : Type := mkLinkButton
  { lb_href : string;
    lb_label : string }.

(** The state setter a control's [onChange] calls with [e.target.value]. *)
Inductive FilterAction : Type :=
| HandleSearch
| SetCountryFilter
| SetStatusFilter.

Definition onChange (a : FilterAction) (v : string) (f : Filters) : Filters :=
  match a with
  | HandleSearch => handleSearch v f
  | SetCountryFilter => setCountryFilter v f
  | SetStatusFilter => setStatusFilter v f
  end.

Record TextInput : Type := mkTextInput
  { input_placeholder : string;
    input_value : string;
    input_onChange : FilterAction }.

Record Select : Type := mkSelect
  { select_value : string;
    select_onChange : FilterAction;
    select_options : list (string * string) }.

Record FilterBar : Type := mkFilterBar
  { searchInput : TextInput;
    countrySelect : Select;
    statusSelect : Select }.

Record Td : Type := mkTd
  { td_key : string;
    td_content : Cell }.

Record Tr : Type := mkTr
  { tr_key : string;
    tr_cells : list Td }.

Record Th : Type := mkTh
  { th_key : string;
    th_text : string }.

Inductive DataArea : Type :=
| EmptyState (heading hint : string) (cta : option LinkButton)
| Table (thead : list Th) (tbody : list Tr).

Inductive View : Type :=
| ErrorPanel (heading msg : string)
| Listing (headerCta : option LinkButton) (filters : FilterBar)
          (summary : string) (area : DataArea).

(** [cond && <element>] as a JSX child. *)
Definition renderWhen {A : Type} (cond : bool) (a : A) : option A :=
  if cond then Some a else None.

Section Page.

(** [can] of the permission gate hook. *)
Variable can : string -> bool.

(** [new Date(s).toLocaleDateString("en-US", { year: "numeric",
    month: "short", day: "numeric" })], which depends on the runtime's
    locale data and time zone. *)
Variable toLocaleDateString : string -> string.

Definition createdAtCell (e : Entity) : Cell :=
  CValue (Js.Str (toLocaleDateString (createdAt e))).

Definition columns : list Column :=
  [ mkColumn "name" "Business Name" nameCell;
    mkColumn "country" "Country" countryCell;
    mkColumn "legalForm" "Legal Form" legalFormCell;
    mkColumn "status" "Status" statusCell;
    mkColumn "registrations" "Registrations" registrationsCell;
    mkColumn "createdAt" "Created" createdAtCell;
    mkColumn "actions" "Actions" actionsCell ].

Definition renderTh (col : Column) : Th := mkTh (col_id col) (header col).

Definition renderTd (entity : Entity) (col : Column) : Td :=
  mkTd (id entity +:+ "-" +:+ col_id col) (cell col entity).

Definition renderTr (entity : Entity) : Tr :=
  mkTr (id entity) (map (renderTd entity) columns).

Definition renderFilters (f : Filters) : FilterBar :=
  mkFilterBar
    (mkTextInput "Search by name..." (searchTerm f) HandleSearch)
    (mkSelect (countryFilter f) SetCountryFilter
       [("", "All Countries"); ("AE", "UAE"); ("SA", "Saudi Arabia"); ("EG", "Egypt")])
    (mkSelect (statusFilter f) SetStatusFilter
       [("", "All Statuses"); ("ACTIVE", "Active"); ("PENDING", "Pending");
        ("ARCHIVED", "Archived")]).

Definition renderSummary (loading : bool) (entities : list Entity) : string :=
  if loading then "Loading entities..."
  else "Showing " +:+ pretty (length entities) +:+ " entit"
       +:+ (if bool_decide (length entities = 1) then "y" else "ies").

Definition renderDataArea (loading : bool) (entities : list Entity) : DataArea :=
  if bool_decide (length entities = 0) && negb loading then
    EmptyState "No entities found"
      "Start by creating a new entity or importing from CSV"
      (renderWhen (can "entities:create")
         (mkLinkButton "/admin/entities/new" "Create First Entity"))
  else
    Table (map renderTh columns) (map renderTr entities).

Definition EntitiesPage (f : Filters) (q : QueryResult) : View :=
  let entities := entitiesOf q in
  match error q with
  | Some err => ErrorPanel "Error Loading Entities" (message err)
  | None =>
      Listing
        (renderWhen (can "entities:create")
           (mkLinkButton "/admin/entities/new" "New Entity"))
        (renderFilters f)
        (renderSummary (isLoading q) entities)
        (renderDataArea (isLoading q) entities)
  end.

End Page.

(** ** Reading a rendered tree *)

Definition viewRows (v : View) : list Tr :=
  match v with
  | Listing _ _ _ (Table _ rows) => rows
  | _ => []
  end.

Definition viewFilters (v : View) : option FilterBar :=
  match v with
  | Listing _ bar _ _ => Some bar
  | ErrorPanel _ _ => None
  end.

Definition viewErrorMessage (v : View) : option string :=
  match v with
  | ErrorPanel _ m => Some m
  | Listing _ _ _ _ => None
  end.

Definition viewHeaderCta (v : View) : option LinkButton :=
  match v with
  | Listing c _ _ _ => c
  | ErrorPanel _ _ => None
  end.

Definition viewEmptyStateCta (v : View) : option LinkButton :=
  match v with
  | Listing _ _ _ (EmptyState _ _ c) => c
  | _ => None
  end.

(** ** Sample records *)

Definition acme : Entity :=
  mkEntity "1" "Acme" "AE" "ACTIVE" None "2024-01-01T00:00:00Z"
    [mkRegistration "VAT" "VERIFIED"; mkRegistration "TRADE" "PENDING"].

Definition unlisted : Entity :=
  mkEntity "2" "Globex" "FR" "SUSPENDED" (Some "") "2024-02-01T00:00:00Z" [].

(** ** Counting, cache-key and sample definitions used by the properties *)

(** The count the specification writes as
    [count(registrations where status == "VERIFIED")], by recursion on the
    sequence. *)
Fixpoint countWhereVerified (rs : list Registration) : nat :=
  match rs with
  | [] => 0
  | r :: rest =>
      (if decide (reg_status r = "VERIFIED") then 1 else 0) + countWhereVerified rest
  end.

(** Decimal digits, and strings made of them. *)
Definition isDigit (c : ascii) : bool :=
  let n := N_of_ascii c in ((48 <=? n) && (n <=? 57))%N.

Fixpoint allDigits (s : string) : bool :=
  match s with
  | "" => true
  | String c rest => isDigit c && allDigits rest
  end.

(** The fields a key built from non-empty filter fields only would hold. *)
Definition nonEmptyFields (f : Filters) : list string :=
  filter (λ v, v ≠ "") [searchTerm f; countryFilter f; statusFilter f].

(** Two permission gates: one grants every action, one grants none. *)
Definition allowAll : string → bool := λ _, true.

Definition denyAll : string → bool := λ _, false.

(** A stand-in date formatter that prints the timestamp as it is. *)
Definition rawDate : string → string := λ s, s.

(** A transport that answers every request with status 500. *)
Definition serverError : string → Settled Response :=
  λ _, resolve (mkResponse 500 (resolve None)).

(** A cache whose entry for the initial filters holds one record, and the
    same cache after a refetch for that key failed. *)
Definition populatedCache : gmap (list string) CacheEntry :=
  commit (queryKey initialFilters) (resolve (Some [acme])) ∅.

Definition failedCache : gmap (list string) CacheEntry :=
  commit (queryKey initialFilters) (queryFn serverError initialFilters) populatedCache.

Definition failedResult : QueryResult :=
  mkQueryResult (Some [acme]) false (Some fetchFailed).

(** A second entity with one verified registration out of two. *)
Definition umbrella : Entity :=
  mkEntity "9" "Umbrella" "SA" "PENDING" None "2024-05-01T00:00:00Z"
    [mkRegistration "ZATCA" "REJECTED"; mkRegistration "CR" "VERIFIED"].

Definition twoRecords : QueryResult :=
  mkQueryResult (Some [unlisted; acme]) false None.

Definition noRecords : QueryResult := mkQueryResult (Some []) false None.

(** ** Reading strings and trees in the further properties *)

(** Every byte of the string satisfies the test. *)
Fixpoint allChars (P : ascii → bool) (s : string) : bool :=
  match s with
  | "" => true
  | String c rest => P c && allChars P rest
  end.

(** The bytes an encoded name or value is made of: the ones left as they
    are, the plus sign standing for a space, and the percent sign. *)
Definition encodedChar (c : ascii) : bool :=
  UrlEncoded.unreserved c || bool_decide (c = "+"%char) || bool_decide (c = "%"%char).

(** The bytes a request URL of the page is made of. *)
Definition urlChar (c : ascii) : bool :=
  encodedChar c
  || bool_decide (c = "/"%char) || bool_decide (c = "?"%char)
  || bool_decide (c = "="%char) || bool_decide (c = "&"%char).

(** A list of parameters written out with nothing encoded: each pair as
    name, equals sign, value, and an ampersand between pairs. *)
Fixpoint plainQuery (ps : list (string * string)) : string :=
  match ps with
  | [] => ""
  | [p] => p.1 +:+ "=" +:+ p.2
  | p :: rest => (p.1 +:+ "=" +:+ p.2) +:+ "&" +:+ plainQuery rest
  end.

(** The filter field a control edits. *)
Definition fieldOf (a : FilterAction) (f : Filters) : string :=
  match a with
  | HandleSearch => searchTerm f
  | SetCountryFilter => countryFilter f
  | SetStatusFilter => statusFilter f
  end.

(** The value a control of the filter bar displays. *)
Definition controlValue (a : FilterAction) (bar : FilterBar) : string :=
  match a with
  | HandleSearch => input_value (searchInput bar)
  | SetCountryFilter => select_value (countrySelect bar)
  | SetStatusFilter => select_value (statusSelect bar)
  end.

#[global] Instance FilterAction_eq_dec : EqDecision FilterAction.
Proof. solve_decision. Defined.

Definition viewSummary (v : View) : option string :=
  match v with
  | Listing _ _ text _ => Some text
  | ErrorPanel _ _ => None
  end.

Definition viewHeaders (v : View) : list Th :=
  match v with
  | Listing _ _ _ (Table ths _) => ths
  | _ => []
  end.

Definition viewShowsEmptyState (v : View) : bool :=
  match v with
  | Listing _ _ _ (EmptyState _ _ _) => true
  | _ => false
  end.

Definition cellHref (c : Cell) : option string :=
  match c with
  | CLink href _ => Some href
  | _ => None
  end.

(** * Properties *)

(** ** Worked examples *)

Example acme_registrations : registrationsText acme = "1/2".
Proof. vm_compute. reflexivity. Qed.

Example acme_country : countryValue acme = Js.Str "🇦🇪 UAE".
Proof. vm_compute. reflexivity. Qed.

Example url_ae : requestUrl (mkFilters "a b&c" "AE" "") = "/api/entities?search=a+b%26c&country=AE".
Proof. vm_compute. reflexivity. Qed.

Example unlisted_country : countryValue unlisted = Js.Str "FR".
Proof. vm_compute. reflexivity. Qed.

Example unlisted_status :
  statusClassName unlisted = "px-2 py-1 rounded text-sm font-medium bg-gray-100 text-gray-800".
Proof. vm_compute. reflexivity. Qed.

(** ** Lookup tables and the [||] fallback *)

Lemma or_undefined (b : Js.value) : Js.or Js.Undefined b = b.
Proof. reflexivity. Qed.

Lemma or_empty_string (b : Js.value) : Js.or (Js.Str "") b = b.
Proof. reflexivity. Qed.

Lemma or_nonempty_string (s : string) (b : Js.value) :
  s ≠ "" → Js.or (Js.Str s) b = Js.Str s.
Proof.
  intros Hs. unfold Js.or; simpl.
  by rewrite bool_decide_eq_true_2.
Qed.

Lemma countryMap_unlisted (k : string) :
  k ≠ "AE" → k ≠ "SA" → k ≠ "EG" → countryMap !! k = None.
Proof.
  intros H1 H2 H3. unfold countryMap.
  rewrite !lookup_insert_ne by done.
  by apply lookup_singleton_ne.
Qed.

Lemma statusStyles_unlisted (k : string) :
  k ≠ "ACTIVE" → k ≠ "PENDING" → k ≠ "ARCHIVED" → statusStyles !! k = None.
Proof.
  intros H1 H2 H3. unfold statusStyles.
  rewrite !lookup_insert_ne by done.
  by apply lookup_singleton_ne.
Qed.

(** A key that is neither an own property nor a name found on
    [Object.prototype] reads as [undefined]. *)
Lemma get_absent (own : gmap string string) (k : string) :
  own !! k = None →
  Js.prototype_methods !! k = None →
  k ≠ "__proto__" →
  Js.get own k = Js.Undefined.
Proof.
  intros Hown Hproto Hk. unfold Js.get, Js.prototype_get.
  rewrite Hown, Hproto. by rewrite decide_False.
Qed.

(** The country fallback on every unlisted code that is not an inherited
    property name. *)
Lemma countryValue_fallback (e : Entity) :
  country e ≠ "AE" → country e ≠ "SA" → country e ≠ "EG" →
  Js.prototype_methods !! country e = None →
  country e ≠ "__proto__" →
  countryValue e = Js.Str (country e).
Proof.
  intros H1 H2 H3 Hp Hq. unfold countryValue.
  rewrite get_absent; auto using countryMap_unlisted.
Qed.

(** The status fallback on every unlisted status that is not an inherited
    property name. *)
Lemma statusClassName_fallback (e : Entity) :
  status e ≠ "ACTIVE" → status e ≠ "PENDING" → status e ≠ "ARCHIVED" →
  Js.prototype_methods !! status e = None →
  status e ≠ "__proto__" →
  statusCell e
  = CBadge "px-2 py-1 rounded text-sm font-medium bg-gray-100 text-gray-800" (status e).
Proof.
  intros H1 H2 H3 Hp Hq. unfold statusCell, statusClassName.
  rewrite get_absent; auto using statusStyles_unlisted.
Qed.

(** ** Column derivations *)

Lemma filter_verified_length (rs : list Registration) :
  length (filter (λ r, reg_status r = "VERIFIED") rs) = countWhereVerified rs.
Proof.
  induction rs as [|r rest IH]; [done|].
  rewrite filter_cons. simpl.
  destruct (decide (reg_status r = "VERIFIED")); simpl; by rewrite IH.
Qed.

Lemma countWhereVerified_le (rs : list Registration) :
  countWhereVerified rs ≤ length rs.
Proof.
  induction rs as [|r rest IH]; simpl; [lia|].
  destruct (decide (reg_status r = "VERIFIED")); lia.
Qed.

Lemma pretty_N_char_isDigit (x : N) : isDigit (pretty_N_char x) = true.
Proof. unfold pretty_N_char. by repeat case_match. Qed.

Lemma pretty_N_go_allDigits (x : N) (s : string) :
  allDigits s = true → allDigits (pretty_N_go x s) = true.
Proof.
  revert s. induction (N.lt_wf_0 x) as [x _ IH]; intros s Hs.
  destruct (decide (x = 0)%N) as [->|Hx].
  - by rewrite pretty_N_go_0.
  - rewrite pretty_N_go_step by lia.
    apply IH; [apply N.div_lt; lia|].
    simpl. by rewrite pretty_N_char_isDigit.
Qed.

Lemma pretty_nat_allDigits (n : nat) : allDigits (pretty n) = true.
Proof.
  unfold pretty, pretty_nat, pretty, pretty_N.
  case_decide; [done|]. by apply pretty_N_go_allDigits.
Qed.

(** Two texts "<digits>/<rest>" that are equal have the same digits and
    the same rest: the first slash ends the numerator. *)
Lemma split_at_slash (d1 d2 s t : string) :
  allDigits d1 = true → allDigits d2 = true →
  d1 +:+ "/" +:+ s = d2 +:+ "/" +:+ t →
  d1 = d2 ∧ s = t.
Proof.
  revert d2. induction d1 as [|c1 d1 IH]; intros [|c2 d2] H1 H2 Heq; simpl in *.
  - by injection Heq.
  - injection Heq as <- _. by apply andb_prop in H2 as [? _].
  - injection Heq as -> _. by apply andb_prop in H1 as [? _].
  - injection Heq as -> Heq.
    apply andb_prop in H1 as [_ H1]. apply andb_prop in H2 as [_ H2].
    by destruct (IH d2 H1 H2 Heq) as [-> ->].
Qed.

(** The rendered ratio determines both counts. *)
Lemma registrationsText_inj (e1 e2 : Entity) :
  registrationsText e1 = registrationsText e2 →
  verifiedCount e1 = verifiedCount e2
  ∧ length (registrations e1) = length (registrations e2).
Proof.
  unfold registrationsText. intros Heq.
  apply split_at_slash in Heq as [Hv Ht]; [|apply pretty_nat_allDigits..].
  split; by apply (inj pretty).
Qed.

(** C4: for every entity the registrations column is the text
    "<verified>/<total>", verified being the number of registrations whose
    status is "VERIFIED" (never more than the total) and total the number
    of registrations; with no registrations the text is "0/0".  The
    derivation is a total function: it has a value on every entity. *)
Theorem registrations_ratio_text :
  (∀ e : Entity,
      registrationsCell e
      = CValue (Js.Str (pretty (countWhereVerified (registrations e))
                        +:+ "/" +:+ pretty (length (registrations e))))
      ∧ countWhereVerified (registrations e) ≤ length (registrations e))
  ∧ (∀ i n c s lf t, registrationsCell (mkEntity i n c s lf t []) = CValue (Js.Str "0/0")).
Proof.
  split.
  - intros e. split; [|apply countWhereVerified_le].
    unfold registrationsCell, registrationsText, verifiedCount.
    by rewrite filter_verified_length.
  - intros. reflexivity.
Qed.

(** C10: an entity whose legalForm is present but is the empty string gets
    the placeholder "—" in the Legal Form column, the same cell as an
    entity with no legalForm at all. *)
Theorem legalForm_empty_is_placeholder (e : Entity) :
  legalForm e = Some "" →
  legalFormCell e = CValue (Js.Str "—")
  ∧ legalFormCell e
    = legalFormCell (mkEntity (id e) (name e) (country e) (status e) None
                       (createdAt e) (registrations e)).
Proof.
  intros Hempty. unfold legalFormCell, legalFormValue; simpl.
  rewrite Hempty; simpl. by rewrite or_empty_string, or_undefined.
Qed.

Lemma legalForm_empty_is_placeholder_witness :
  legalForm unlisted = Some ""
  ∧ legalFormCell unlisted = CValue (Js.Str "—").
Proof.
  split; [reflexivity|].
  apply (legalForm_empty_is_placeholder unlisted). reflexivity.
Defined.

(** C5: the country and status derivations look the value up in an object
    literal, so a code that names a property inherited from
    Object.prototype is found there and the fallback is not taken: for
    country "constructor" the cell is the built-in Object function, not
    the raw code, and for status "__proto__" the badge class ends in
    "[object Object]", not in the neutral style. *)
Theorem inherited_property_names_skip_fallback :
  let e := mkEntity "3" "Initech" "constructor" "__proto__" None "2024-03-01T00:00:00Z" [] in
  countryCell e = CValue (Js.NativeFunction "Object")
  ∧ countryCell e ≠ CValue (Js.Str (country e))
  ∧ statusCell e = CBadge "px-2 py-1 rounded text-sm font-medium [object Object]" "__proto__"
  ∧ statusCell e
    ≠ CBadge "px-2 py-1 rounded text-sm font-medium bg-gray-100 text-gray-800" (status e).
Proof.
  vm_compute. repeat split; discriminate.
Qed.

(** ** Cache key *)

(** C2, as stated, fails: with only the country set, the key still holds
    the two empty fields, so it is not the key built from the non-empty
    fields and an empty string occurs in it. *)
Lemma queryKey_keeps_empty_fields :
  let f := mkFilters "" "AE" "" in
  queryKey f = ["entities"; ""; "AE"; ""]
  ∧ queryKey f ≠ "entities" :: nonEmptyFields f
  ∧ "" ∈ queryKey f.
Proof.
  simpl. split; [reflexivity|]. split; [discriminate|].
  apply list_elem_of_lookup. by exists 1.
Qed.

Lemma searchParams_keeps_nonempty (f : Filters) :
  searchParams f
  = filter (λ p : string * string, p.2 ≠ "")
      [("search", searchTerm f); ("country", countryFilter f); ("status", statusFilter f)].
Proof.
  destruct f as [s c t]. unfold searchParams, spreadWhen; simpl.
  rewrite !filter_cons, filter_nil; simpl.
  destruct (decide (s = "")) as [->|?], (decide (c = "")) as [->|?],
    (decide (t = "")) as [->|?]; simpl;
    by rewrite ?decide_True by done.
Qed.

(** C2, amended: the cache key is the tag "entities" followed by the three
    filter fields verbatim, empty ones included, always four elements
    long; two filter states have the same key exactly when they agree on
    all three fields.  Empty fields are omitted only from the request's
    query parameters: those are the three named fields with the empty
    ones filtered out, so a field that is empty is still an element of the
    key and is not a parameter. *)
Theorem queryKey_exact_triple (f1 f2 : Filters) :
  (queryKey f1 = queryKey f2 ↔ f1 = f2)
  ∧ length (queryKey f1) = 4
  ∧ queryKey f1 !! 0 = Some "entities"
  ∧ queryKey f1 !! 1 = Some (searchTerm f1)
  ∧ queryKey f1 !! 2 = Some (countryFilter f1)
  ∧ queryKey f1 !! 3 = Some (statusFilter f1)
  ∧ searchParams f1
    = filter (λ p : string * string, p.2 ≠ "")
        [("search", searchTerm f1); ("country", countryFilter f1);
         ("status", statusFilter f1)]
  ∧ Forall (λ p : string * string, p.2 ≠ "") (searchParams f1).
Proof.
  split; [|repeat split; try done].
  - split; [|by intros ->].
    destruct f1, f2; unfold queryKey; simpl. by intros [= -> -> ->].
  - apply searchParams_keeps_nonempty.
  - rewrite searchParams_keeps_nonempty. apply Forall_forall.
    intros p Hp. by apply list_elem_of_filter in Hp as [Hp _].
Qed.

(** ** Request construction *)





Example requestUrl_no_filters : requestUrl initialFilters = "/api/entities?".
Proof. reflexivity. Qed.

Example requestUrl_country_only :
  requestUrl (mkFilters "" "AE" "") = "/api/entities?country=AE".
Proof. vm_compute. reflexivity. Qed.

(** ** Fetch function *)

Lemma ok_iff (r : Response) : ok r = true ↔ 200 ≤ http_status r ≤ 299.
Proof. unfold ok. apply bool_decide_eq_true. Qed.

(** C6: whenever the response is not ok, whatever its status code and
    body, the fetch function rejects with the one error "Failed to fetch
    entities". *)
Theorem queryFn_non_ok_is_fetchFailed
    (fetch : string → Settled Response) (f : Filters) (r : Response) :
  fetch (requestUrl f) = resolve r →
  ok r = false →
  queryFn fetch f = throw fetchFailed.
Proof.
  intros Hfetch Hok. unfold queryFn. rewrite Hfetch. simpl.
  by rewrite Hok.
Qed.

Lemma queryFn_non_ok_is_fetchFailed_witness :
  ok (mkResponse 403 (resolve (Some [acme]))) = false
  ∧ ok (mkResponse 500 (throw (mkError "Unexpected end of JSON input"))) = false
  ∧ queryFn (λ _, resolve (mkResponse 403 (resolve (Some [acme])))) initialFilters
    = throw fetchFailed
  ∧ queryFn (λ _, resolve (mkResponse 500 (throw (mkError "Unexpected end of JSON input"))))
      initialFilters
    = throw fetchFailed.
Proof.
  split; [reflexivity|]. split; [reflexivity|]. split.
  - apply (queryFn_non_ok_is_fetchFailed _ initialFilters
             (mkResponse 403 (resolve (Some [acme])))); reflexivity.
  - apply (queryFn_non_ok_is_fetchFailed _ initialFilters
             (mkResponse 500 (throw (mkError "Unexpected end of JSON input")))); reflexivity.
Defined.

Example queryFn_ok_returns_data :
  queryFn (λ _, resolve (mkResponse 200 (resolve (Some [acme])))) initialFilters
  = resolve (Some [acme]).
Proof. reflexivity. Qed.

(** ** The rendered page *)

Section PageFacts.

Context (can : string → bool) (toLocaleDateString : string → string).

Lemma EntitiesPage_error (f : Filters) (q : QueryResult) (err : Error) :
  error q = Some err →
  EntitiesPage can toLocaleDateString f q
  = ErrorPanel "Error Loading Entities" (message err).
Proof. intros Herr. unfold EntitiesPage. by rewrite Herr. Qed.

Lemma EntitiesPage_no_error (f : Filters) (q : QueryResult) :
  error q = None →
  EntitiesPage can toLocaleDateString f q
  = Listing
      (renderWhen (can "entities:create")
         (mkLinkButton "/admin/entities/new" "New Entity"))
      (renderFilters f)
      (renderSummary (isLoading q) (entitiesOf q))
      (renderDataArea can toLocaleDateString (isLoading q) (entitiesOf q)).
Proof. intros Herr. unfold EntitiesPage. by rewrite Herr. Qed.


Lemma renderDataArea_empty :
  renderDataArea can toLocaleDateString false []
  = EmptyState "No entities found"
      "Start by creating a new entity or importing from CSV"
      (renderWhen (can "entities:create")
         (mkLinkButton "/admin/entities/new" "Create First Entity")).
Proof. reflexivity. Qed.

Lemma renderWhen_is_Some {A : Type} (c : bool) (a : A) :
  is_Some (renderWhen c a) ↔ c = true.
Proof.
  destruct c; simpl; split; done.
Qed.

(** The failure commit keeps the records of the entry and sets the
    error. *)
Lemma commit_failure_lookup (key : list string) (e : Error)
    (cache : gmap (list string) CacheEntry) :
  commit key (throw e) cache !! key
  = Some (mkCacheEntry (records (default freshEntry (cache !! key))) false (Some e)).
Proof. unfold commit, throw. by rewrite lookup_insert_eq. Qed.

(** C1, amended: when the fetch for the active filter key fails, the
    cache entry keeps its records and its error is set to the failure,
    but the page does not display them: it renders the error panel with
    the failure's message and no rows. *)
Theorem failed_fetch_keeps_records_but_hides_rows
    (fetch : string → Settled Response) (f : Filters) (e : Error)
    (cache : gmap (list string) CacheEntry) :
  queryFn fetch f = throw e →
  let cache' := commit (queryKey f) (queryFn fetch f) cache in
  let view := EntitiesPage can toLocaleDateString f (useQuery cache' f) in
  data (useQuery cache' f) = Some (records (default freshEntry (cache !! queryKey f)))
  ∧ error (useQuery cache' f) = Some e
  ∧ view = ErrorPanel "Error Loading Entities" (message e)
  ∧ viewRows view = [].
Proof.
  intros Hfail cache' view. subst cache' view. rewrite Hfail.
  unfold useQuery. rewrite commit_failure_lookup. simpl.
  by rewrite (EntitiesPage_error _ _ e).
Qed.

(** Outside the Error state the three controls are rendered with the
    current filter values, and editing one replaces that field. *)
Lemma filters_rendered_without_error (f : Filters) (q : QueryResult) :
  error q = None →
  ∃ bar, viewFilters (EntitiesPage can toLocaleDateString f q) = Some bar
    ∧ input_value (searchInput bar) = searchTerm f
    ∧ select_value (countrySelect bar) = countryFilter f
    ∧ select_value (statusSelect bar) = statusFilter f
    ∧ (∀ v, onChange (input_onChange (searchInput bar)) v f = setSearchTerm v f)
    ∧ (∀ v, onChange (select_onChange (countrySelect bar)) v f = setCountryFilter v f)
    ∧ (∀ v, onChange (select_onChange (statusSelect bar)) v f = setStatusFilter v f).
Proof.
  intros Herr. rewrite EntitiesPage_no_error by done.
  by exists (renderFilters f).
Qed.

(** C3, amended: in the Error presentation state the page renders only
    the error panel, carrying the error's message; the header, the three
    filter controls, the summary and the table are not rendered.  In every
    state without an error the three filter controls are rendered and
    editable: each shows the current value of its filter field and its
    change handler replaces that field with the value typed or chosen. *)
Theorem error_state_renders_only_the_panel (f : Filters) (q : QueryResult) :
  let view := EntitiesPage can toLocaleDateString f q in
  match error q with
  | Some err =>
      view = ErrorPanel "Error Loading Entities" (message err)
      ∧ viewErrorMessage view = Some (message err)
      ∧ viewFilters view = None
      ∧ viewHeaderCta view = None
      ∧ viewSummary view = None
      ∧ viewRows view = []
  | None =>
      viewErrorMessage view = None
      ∧ ∃ bar, viewFilters view = Some bar
          ∧ input_value (searchInput bar) = searchTerm f
          ∧ select_value (countrySelect bar) = countryFilter f
          ∧ select_value (statusSelect bar) = statusFilter f
          ∧ (∀ v, onChange (input_onChange (searchInput bar)) v f = setSearchTerm v f)
          ∧ (∀ v, onChange (select_onChange (countrySelect bar)) v f
                  = setCountryFilter v f)
          ∧ (∀ v, onChange (select_onChange (statusSelect bar)) v f
                  = setStatusFilter v f)
  end.
Proof.
  intros view. subst view. destruct (error q) as [err|] eqn:Herr.
  - by rewrite (EntitiesPage_error _ _ err).
  - split; [by rewrite EntitiesPage_no_error|].
    by apply filters_rendered_without_error.
Qed.


Lemma rows_carry_action_links (es : list Entity) :
  Forall2 (λ e row, tr_key row = id e
                    ∧ mkTd (id e +:+ "-actions")
                           (CLink ("/admin/entities/" +:+ id e) ChevronButton)
                      ∈ tr_cells row)
    es (map (renderTr toLocaleDateString) es).
Proof.
  induction es as [|e es IH]; [constructor|].
  rewrite map_cons. constructor; [|exact IH].
  split; [reflexivity|].
  unfold renderTr, columns; simpl. rewrite !elem_of_cons. auto 10.
Qed.

(** C8, amended: gating applies to the creation call-to-action only,
    never to rows.  The "New Entity" button of the header is rendered
    exactly when [can "entities:create"] is true and there is no error;
    the "Create First Entity" button of the empty state exactly when
    [can "entities:create"] is true, there is no error, no record was
    received and loading is false.  The rows are the same whatever the
    permission gate answers: without an error there is one row per
    received record, in order, carrying the chevron link to that record's
    detail route; with an error there is no row. *)
Theorem create_is_gated_rows_are_not
    (can' : string → bool) (f : Filters) (q : QueryResult) :
  let view := EntitiesPage can toLocaleDateString f q in
  let received := default [] (data q) in
  (is_Some (viewHeaderCta view) ↔ can "entities:create" = true ∧ error q = None)
  ∧ (is_Some (viewEmptyStateCta view)
     ↔ can "entities:create" = true ∧ error q = None
       ∧ received = [] ∧ isLoading q = false)
  ∧ viewRows view = viewRows (EntitiesPage can' toLocaleDateString f q)
  ∧ match error q with
    | Some _ => viewRows view = []
    | None =>
        Forall2 (λ e row, tr_key row = id e
                          ∧ mkTd (id e +:+ "-actions")
                                 (CLink ("/admin/entities/" +:+ id e) ChevronButton)
                            ∈ tr_cells row)
          received (viewRows view)
    end.
Proof.
  intros view received. subst view received.
  unfold EntitiesPage. fold (entitiesOf q).
  destruct (error q) as [err|]; simpl.
  - split; [split; [by intros [? ?]|by intros [_ ?]]|].
    split; [split; [by intros [? ?]|by intros (_ & ? & _)]|]. done.
  - split; [rewrite renderWhen_is_Some; tauto|].
    unfold renderDataArea.
    destruct (entitiesOf q) as [|e es] eqn:Hes, (isLoading q); simpl.
    + split; [split; [by intros [? ?]|by intros (_ & _ & _ & ?)]|].
      split; [done|constructor].
    + split; [rewrite renderWhen_is_Some; tauto|].
      split; [done|constructor].
    + split; [split; [by intros [? ?]|by intros (_ & _ & ? & _)]|].
      split; [done|]. apply (rows_carry_action_links (e :: es)).
    + split; [split; [by intros [? ?]|by intros (_ & _ & ? & _)]|].
      split; [done|]. apply (rows_carry_action_links (e :: es)).
Qed.

(** Wherever a creation button is rendered, the capability is held. *)
Lemma create_cta_requires_capability (f : Filters) (q : QueryResult) :
  let view := EntitiesPage can toLocaleDateString f q in
  (is_Some (viewHeaderCta view) → can "entities:create" = true)
  ∧ (is_Some (viewEmptyStateCta view) → can "entities:create" = true).
Proof.
  unfold EntitiesPage. destruct (error q); simpl.
  - split; by intros [? ?].
  - split; [apply renderWhen_is_Some|].
    unfold renderDataArea.
    destruct (bool_decide (length (entitiesOf q) = 0) && negb (isLoading q)); simpl.
    + apply renderWhen_is_Some.
    + by intros [? ?].
Qed.

End PageFacts.

(** ** Concrete runs of the page *)

Example populatedCache_view :
  viewRows (EntitiesPage allowAll rawDate initialFilters (useQuery populatedCache initialFilters))
  = [renderTr rawDate acme].
Proof. vm_compute. reflexivity. Qed.

Example failedCache_result : useQuery failedCache initialFilters = failedResult.
Proof. vm_compute. reflexivity. Qed.

(** C1, as stated, fails: a view populated with one record, whose refetch
    then fails, keeps the record in the cache entry but renders no row for
    it. *)
Lemma failed_refetch_blanks_populated_view :
  let before := EntitiesPage allowAll rawDate initialFilters
                  (useQuery populatedCache initialFilters) in
  let after := EntitiesPage allowAll rawDate initialFilters
                 (useQuery failedCache initialFilters) in
  data (useQuery failedCache initialFilters) = Some [acme]
  ∧ viewRows before = [renderTr rawDate acme]
  ∧ viewRows after = []
  ∧ viewRows after ≠ map (renderTr rawDate) [acme].
Proof.
  vm_compute. repeat split. discriminate.
Qed.

Lemma failed_fetch_keeps_records_but_hides_rows_witness :
  queryFn serverError initialFilters = throw fetchFailed
  ∧ EntitiesPage allowAll rawDate initialFilters (useQuery failedCache initialFilters)
    = ErrorPanel "Error Loading Entities" "Failed to fetch entities".
Proof.
  split; [reflexivity|].
  destruct (failed_fetch_keeps_records_but_hides_rows allowAll rawDate
              serverError initialFilters fetchFailed populatedCache)
    as (_ & _ & Hview & _); [reflexivity|].
  exact Hview.
Defined.

(** C3, as stated, fails: with the error set, the rendered tree is the
    error panel alone and holds no filter control. *)
Lemma error_state_has_no_filter_controls :
  let f := mkFilters "" "AE" "" in
  let view := EntitiesPage allowAll rawDate f failedResult in
  view = ErrorPanel "Error Loading Entities" "Failed to fetch entities"
  ∧ viewFilters view = None
  ∧ viewFilters view ≠ Some (renderFilters f).
Proof.
  simpl. repeat split. discriminate.
Qed.

Lemma error_state_renders_only_the_panel_witness :
  viewFilters (EntitiesPage denyAll rawDate (mkFilters "acme" "" "ACTIVE") failedResult) = None
  ∧ ∃ bar, viewFilters (EntitiesPage denyAll rawDate (mkFilters "acme" "" "ACTIVE") twoRecords)
           = Some bar
           ∧ input_value (searchInput bar) = "acme"
           ∧ select_value (statusSelect bar) = "ACTIVE".
Proof.
  split.
  - pose proof (error_state_renders_only_the_panel denyAll rawDate
                  (mkFilters "acme" "" "ACTIVE") failedResult) as Hpanel.
    simpl in Hpanel. destruct Hpanel as (_ & _ & Hbar & _). exact Hbar.
  - pose proof (error_state_renders_only_the_panel denyAll rawDate
                  (mkFilters "acme" "" "ACTIVE") twoRecords) as Hlisting.
    simpl in Hlisting.
    destruct Hlisting as (_ & bar & Hbar & Hsearch & _ & Hstatus & _).
    exists bar. split; [exact Hbar|]. split; [exact Hsearch|exact Hstatus].
Defined.


(** Records that repeat are rendered as often as they were received. *)
Example repeated_records_keep_their_rows :
  viewRows (EntitiesPage denyAll rawDate initialFilters
              (mkQueryResult (Some [acme; unlisted; acme]) false None))
  = [renderTr rawDate acme; renderTr rawDate unlisted; renderTr rawDate acme].
Proof. reflexivity. Qed.

(** C8, as stated, fails: an actor who holds the capability gets neither
    creation button while the error is set, nor the empty-state button
    when there are records; and a record held while the error is set has
    no row, hence no link. *)
Lemma granted_actor_without_create_button :
  allowAll "entities:create" = true
  ∧ viewHeaderCta (EntitiesPage allowAll rawDate initialFilters failedResult) = None
  ∧ viewEmptyStateCta (EntitiesPage allowAll rawDate initialFilters failedResult) = None
  ∧ viewEmptyStateCta (EntitiesPage allowAll rawDate initialFilters twoRecords) = None
  ∧ data failedResult = Some [acme]
  ∧ viewRows (EntitiesPage allowAll rawDate initialFilters failedResult) = [].
Proof. repeat split. Qed.

Lemma create_is_gated_rows_are_not_witness :
  Forall2 (λ e row, tr_key row = id e
                    ∧ mkTd (id e +:+ "-actions")
                           (CLink ("/admin/entities/" +:+ id e) ChevronButton)
                      ∈ tr_cells row)
    [unlisted; acme]
    (viewRows (EntitiesPage denyAll rawDate initialFilters twoRecords))
  ∧ viewRows (EntitiesPage denyAll rawDate initialFilters twoRecords)
    = viewRows (EntitiesPage allowAll rawDate initialFilters twoRecords)
  ∧ (is_Some (viewHeaderCta (EntitiesPage allowAll rawDate initialFilters twoRecords))
     ↔ allowAll "entities:create" = true ∧ error twoRecords = None)
  ∧ (is_Some (viewEmptyStateCta (EntitiesPage denyAll rawDate initialFilters noRecords))
     ↔ denyAll "entities:create" = true ∧ error noRecords = None
       ∧ default [] (data noRecords) = [] ∧ isLoading noRecords = false).
Proof.
  pose proof (create_is_gated_rows_are_not denyAll rawDate allowAll initialFilters twoRecords)
    as (_ & _ & Hsame & Hrows).
  pose proof (create_is_gated_rows_are_not allowAll rawDate denyAll initialFilters twoRecords)
    as (Hheader & _).
  pose proof (create_is_gated_rows_are_not denyAll rawDate allowAll initialFilters noRecords)
    as (_ & Hempty & _).
  split; [exact Hrows|]. split; [exact Hsame|]. split; [exact Hheader|exact Hempty].
Defined.

Example denied_actor_still_gets_row_links :
  actionsCell acme = CLink "/admin/entities/1" ChevronButton
  ∧ viewHeaderCta (EntitiesPage denyAll rawDate initialFilters twoRecords) = None
  ∧ viewEmptyStateCta (EntitiesPage denyAll rawDate initialFilters noRecords) = None
  ∧ viewEmptyStateCta (EntitiesPage allowAll rawDate initialFilters noRecords)
    = Some (mkLinkButton "/admin/entities/new" "Create First Entity").
Proof. repeat split. Qed.


(** * Further properties of the page *)

(** ** Strings *)

Lemma append_cons (c : ascii) (a b : string) : String c a +:+ b = String c (a +:+ b).
Proof. reflexivity. Qed.

Lemma append_nil_r (s : string) : s +:+ "" = s.
Proof. induction s as [|c s IH]; [done|]. by rewrite append_cons, IH. Qed.

Lemma append_assoc (a b c : string) : (a +:+ b) +:+ c = a +:+ (b +:+ c).
Proof. induction a as [|x a IH]; [done|]. by rewrite !append_cons, IH. Qed.

Lemma length_append (a b : string) :
  String.length (a +:+ b) = String.length a + String.length b.
Proof. induction a as [|x a IH]; [done|]. rewrite append_cons. simpl. by rewrite IH. Qed.

Lemma allChars_append (P : ascii → bool) (a b : string) :
  allChars P (a +:+ b) = allChars P a && allChars P b.
Proof.
  induction a as [|x a IH]; [done|].
  rewrite append_cons. simpl. by rewrite IH, andb_assoc.
Qed.

Lemma allChars_impl (P Q : ascii → bool) (s : string) :
  (∀ c, P c = true → Q c = true) → allChars P s = true → allChars Q s = true.
Proof.
  intros HPQ. induction s as [|c s IH]; simpl; [done|].
  intros [Hc Hs]%andb_prop. by rewrite (HPQ c Hc), IH.
Qed.

(** ** The URL encoder *)

Ltac each_byte c :=
  destruct c as [[] [] [] [] [] [] [] []].

Lemma encodeByte_encodedChars (c : ascii) :
  allChars encodedChar (UrlEncoded.encodeByte c) = true.
Proof. each_byte c; reflexivity. Qed.

Lemma encode_encodedChars (s : string) : allChars encodedChar (UrlEncoded.encode s) = true.
Proof.
  induction s as [|c s IH]; [done|].
  change (UrlEncoded.encode (String c s))
    with (UrlEncoded.encodeByte c +:+ UrlEncoded.encode s).
  by rewrite allChars_append, encodeByte_encodedChars, IH.
Qed.

Lemma encodeByte_length (c : ascii) :
  1 ≤ String.length (UrlEncoded.encodeByte c) ≤ 3.
Proof. each_byte c; vm_compute; lia. Qed.

(** ** Request URL *)

Lemma searchParams_inj (f1 f2 : Filters) : searchParams f1 = searchParams f2 → f1 = f2.
Proof.
  destruct f1 as [s1 c1 t1], f2 as [s2 c2 t2].
  unfold searchParams, spreadWhen; simpl.
  repeat case_decide; simpl; intros Heq; by simplify_eq.
Qed.

(** X1: two filter states hand the same parameter record to
    [URLSearchParams] exactly when they have the same cache key: the
    record loses nothing of the filter state.  (What the platform's
    serializer then does to a value, such as replacing a lone surrogate,
    is outside this statement.) *)
Theorem searchParams_matches_queryKey (f1 f2 : Filters) :
  searchParams f1 = searchParams f2 ↔ queryKey f1 = queryKey f2.
Proof.
  split.
  - by intros ->%searchParams_inj.
  - destruct f1, f2. unfold queryKey; simpl. by intros [= -> -> ->].
Qed.

Lemma pair_urlChars (p : string * string) : allChars urlChar (UrlEncoded.pair p) = true.
Proof.
  assert (Himpl : ∀ c, encodedChar c = true → urlChar c = true).
  { intros c Hc. unfold urlChar. by rewrite Hc. }
  unfold UrlEncoded.pair. rewrite !allChars_append.
  rewrite !(allChars_impl _ _ _ Himpl (encode_encodedChars _)). done.
Qed.

Lemma serialize_urlChars (ps : list (string * string)) :
  allChars urlChar (UrlEncoded.serialize ps) = true.
Proof.
  induction ps as [|p [|q ps] IH]; [done|apply pair_urlChars|].
  change (UrlEncoded.serialize (p :: q :: ps))
    with (UrlEncoded.pair p +:+ "&" +:+ UrlEncoded.serialize (q :: ps)).
  rewrite !allChars_append, pair_urlChars, IH. done.
Qed.

(** X2: whatever bytes the filter fields hold, the request URL is made
    only of ASCII letters, digits, the marks [* - . _], and [+ % / ? = &]:
    no space, no [#], no byte outside ASCII reaches the URL. *)
Theorem requestUrl_is_url_safe (f : Filters) :
  allChars urlChar (requestUrl f) = true
  ∧ allChars (λ c, negb (bool_decide (c = " "%char)) && negb (bool_decide (c = "#"%char))
                   && (N_of_ascii c <? 128)%N) (requestUrl f) = true.
Proof.
  assert (Hurl : allChars urlChar (requestUrl f) = true).
  { unfold requestUrl. by rewrite allChars_append, serialize_urlChars. }
  split; [done|].
  eapply allChars_impl; [|exact Hurl].
  intros c. each_byte c; vm_compute; congruence.
Qed.

Lemma encode_length (s : string) :
  String.length s ≤ String.length (UrlEncoded.encode s) ≤ 3 * String.length s.
Proof.
  induction s as [|c s IH]; [simpl; lia|].
  change (UrlEncoded.encode (String c s))
    with (UrlEncoded.encodeByte c +:+ UrlEncoded.encode s).
  rewrite length_append. pose proof (encodeByte_length c). simpl. lia.
Qed.

Lemma encode_unreserved (s : string) :
  allChars UrlEncoded.unreserved s = true → UrlEncoded.encode s = s.
Proof.
  induction s as [|c s IH]; [done|]. simpl.
  intros [Hc Hs]%andb_prop.
  unfold UrlEncoded.encodeByte. rewrite Hc, append_cons. simpl. by rewrite IH.
Qed.

Lemma serialize_plain (ps : list (string * string)) :
  Forall (λ p : string * string,
            allChars UrlEncoded.unreserved p.1 = true
            ∧ allChars UrlEncoded.unreserved p.2 = true) ps →
  UrlEncoded.serialize ps = plainQuery ps.
Proof.
  induction ps as [|p ps IH]; [done|].
  intros [[Hk Hv] Hrest]%Forall_cons.
  assert (Hpair : UrlEncoded.pair p = p.1 +:+ "=" +:+ p.2).
  { unfold UrlEncoded.pair. by rewrite !encode_unreserved. }
  destruct ps as [|q ps]; [exact Hpair|].
  change (UrlEncoded.serialize (p :: q :: ps))
    with (UrlEncoded.pair p +:+ "&" +:+ UrlEncoded.serialize (q :: ps)).
  change (plainQuery (p :: q :: ps))
    with ((p.1 +:+ "=" +:+ p.2) +:+ "&" +:+ plainQuery (q :: ps)).
  by rewrite Hpair, IH.
Qed.

Lemma spreadWhen_plain (k v : string) :
  allChars UrlEncoded.unreserved k = true →
  allChars UrlEncoded.unreserved v = true →
  Forall (λ p : string * string,
            allChars UrlEncoded.unreserved p.1 = true
            ∧ allChars UrlEncoded.unreserved p.2 = true) (spreadWhen k v).
Proof.
  intros Hk Hv. unfold spreadWhen. destruct (decide (v = "")); [constructor|].
  by repeat constructor.
Qed.

(** X3: when the three filter fields are made only of ASCII letters,
    digits and the marks [* - . _], the request URL is "/api/entities?"
    followed by the non-empty fields written as they are,
    "<name>=<value>" joined by ampersands: nothing in them is escaped. *)
Theorem plain_filter_values_sent_unchanged (f : Filters) :
  allChars UrlEncoded.unreserved (searchTerm f) = true →
  allChars UrlEncoded.unreserved (countryFilter f) = true →
  allChars UrlEncoded.unreserved (statusFilter f) = true →
  requestUrl f = "/api/entities?" +:+ plainQuery (searchParams f).
Proof.
  intros Hs Hc Ht. unfold requestUrl. f_equal.
  apply serialize_plain. unfold searchParams.
  rewrite !Forall_app. repeat split; by apply spreadWhen_plain.
Qed.

(** X5: the request URL is never shorter than its fixed prefix plus the
    bytes of the filter fields, and never longer than 38 bytes plus three
    times the bytes of the filter fields. *)
Theorem requestUrl_length_bounds (f : Filters) :
  let total := String.length (searchTerm f) + String.length (countryFilter f)
               + String.length (statusFilter f) in
  14 + total ≤ String.length (requestUrl f) ≤ 38 + 3 * total.
Proof.
  destruct f as [s c t]. simpl. unfold requestUrl, searchParams, spreadWhen; simpl.
  pose proof (encode_length s) as Hs. pose proof (encode_length c) as Hc.
  pose proof (encode_length t) as Ht.
  destruct (decide (s = "")) as [->|?], (decide (c = "")) as [->|?],
    (decide (t = "")) as [->|?]; simpl in *;
    unfold UrlEncoded.pair; simpl;
    rewrite ?length_append; simpl; rewrite ?length_append; simpl; lia.
Qed.

Lemma searchParams_cases (f : Filters) :
  length (searchParams f) = length (nonEmptyFields f)
  ∧ NoDup (searchParams f).*1
  ∧ (searchParams f).*1 ⊆ ["search"; "country"; "status"].
Proof.
  destruct f as [s c t]. unfold searchParams, nonEmptyFields, spreadWhen; simpl.
  rewrite !filter_cons, filter_nil. simpl.
  destruct (decide (s = "")) as [->|Hs], (decide (c = "")) as [->|Hc],
    (decide (t = "")) as [->|Ht]; simpl;
    rewrite ?decide_True by done; simpl;
    (split; [done|]); (split; [by apply (bool_decide_unpack _)|]);
    intros x; rewrite ?elem_of_cons, ?elem_of_nil; tauto.
Qed.

(** X4: the request carries one parameter per non-empty filter field, so
    at most three, each named search, country or status, and no name
    twice. *)
Theorem searchParams_names (f : Filters) :
  length (searchParams f) = length (nonEmptyFields f)
  ∧ length (searchParams f) ≤ 3
  ∧ NoDup (searchParams f).*1
  ∧ (searchParams f).*1 ⊆ ["search"; "country"; "status"].
Proof.
  destruct (searchParams_cases f) as (Hlen & Hnd & Hsub).
  split; [done|]. split; [|done].
  rewrite Hlen. unfold nonEmptyFields.
  etrans; [apply length_filter|]. done.
Qed.

(** ** Outcomes of the fetch function *)

(** X6: the fetch function resolves with a value exactly when the request
    was answered with a status from 200 to 299 and reading the body's
    [data] gave that value: data of any other response is never
    returned. *)
Theorem queryFn_resolves_iff
    (fetch : string → Settled Response) (f : Filters) (d : option (list Entity)) :
  queryFn fetch f = resolve d
  ↔ ∃ r, fetch (requestUrl f) = resolve r
         ∧ 200 ≤ http_status r ≤ 299
         ∧ json_data r = resolve d.
Proof.
  unfold queryFn, resolve, throw.
  destruct (fetch (requestUrl f)) as [e|r] eqn:Hfetch; simpl.
  - split; [done|]. by intros (r & [=] & _).
  - destruct (ok r) eqn:Hok; simpl.
    + apply ok_iff in Hok. destruct (json_data r) as [e|d'] eqn:Hjson; simpl.
      * split; [done|]. intros (r' & [= <-] & _ & Hd). congruence.
      * split.
        -- intros [= ->]. by exists r.
        -- intros (r' & [= <-] & _ & Hd). congruence.
    + split; [done|]. intros (r' & [= <-] & Hrange & _).
      apply ok_iff in Hrange. congruence.
Qed.

(** X7: the fetch function rejects with an error exactly in three cases:
    the request itself was rejected with that error, the response had a
    status outside 200 to 299 and the error is "Failed to fetch entities",
    or the status was in range and reading the body was rejected with
    that error. *)
Theorem queryFn_rejects_iff
    (fetch : string → Settled Response) (f : Filters) (e : Error) :
  queryFn fetch f = throw e
  ↔ fetch (requestUrl f) = throw e
    ∨ (∃ r, fetch (requestUrl f) = resolve r
            ∧ ¬ (200 ≤ http_status r ≤ 299) ∧ e = fetchFailed)
    ∨ (∃ r, fetch (requestUrl f) = resolve r
            ∧ 200 ≤ http_status r ≤ 299 ∧ json_data r = throw e).
Proof.
  unfold queryFn, resolve, throw.
  destruct (fetch (requestUrl f)) as [e'|r] eqn:Hfetch; simpl.
  - split; [intros [= ->]; by left|].
    intros [[= ->]|[(r & [=] & _)|(r & [=] & _)]]; done.
  - destruct (ok r) eqn:Hok; simpl.
    + apply ok_iff in Hok. destruct (json_data r) as [e'|d] eqn:Hjson; simpl.
      * split.
        -- intros [= ->]. right; right. by exists r.
        -- intros [[=]|[(r' & [= <-] & Hout & _)|(r' & [= <-] & _ & Hjson')]];
             [done|congruence].
      * split; [done|].
        intros [[=]|[(r' & [= <-] & Hout & _)|(r' & [= <-] & _ & Hjson')]];
          [done|congruence].
    + assert (Hout : ¬ (200 ≤ http_status r ≤ 299)).
      { intros Hin%ok_iff. congruence. }
      split.
      * intros [= <-]. right; left. by exists r.
      * intros [[=]|[(r' & [= <-] & _ & ->)|(r' & [= <-] & Hin & _)]]; done.
Qed.

(** ** More on the column derivations *)

(** X8: the Legal Form cell is never blank: it is always a non-empty
    text, the entity's legalForm when that is present and non-empty, and
    the placeholder "—" in every other case. *)
Theorem legalForm_cell_never_blank (e : Entity) :
  ∃ s, legalFormCell e = CValue (Js.Str s)
       ∧ s ≠ ""
       ∧ (legalForm e = Some s ∨ (s = "—" ∧ (legalForm e = None ∨ legalForm e = Some ""))).
Proof.
  unfold legalFormCell, legalFormValue.
  destruct (legalForm e) as [s|]; simpl.
  - destruct (decide (s = "")) as [->|Hs].
    + exists "—". rewrite or_empty_string. split; [done|]. split; [done|]. right. auto.
    + exists s. rewrite or_nonempty_string by done. auto.
  - exists "—". rewrite or_undefined. split; [done|]. split; [done|]. right. auto.
Qed.

Lemma countryValue_truthy_iff (e : Entity) :
  Js.truthy (countryValue e) = false ↔ country e = "".
Proof.
  unfold countryValue, Js.or.
  destruct (Js.truthy (Js.get countryMap (country e))) eqn:Hget.
  - rewrite Hget. split; [done|].
    intros Hempty. rewrite Hempty in Hget. by vm_compute in Hget.
  - simpl. rewrite bool_decide_eq_false. split.
    + intros Hnn. by destruct (decide (country e = "")).
    + intros -> ?. done.
Qed.

(** X9: for an entity whose country is not the name of a property
    inherited from Object.prototype, the Country cell is a text: the label
    of the code when it is listed, the raw code otherwise; and that text
    is empty exactly when the country is the empty string. *)
Theorem country_cell_empty_iff (e : Entity) :
  Js.prototype_methods !! country e = None →
  country e ≠ "__proto__" →
  ∃ s, countryCell e = CValue (Js.Str s)
       ∧ (s = "" ↔ country e = "")
       ∧ (countryMap !! country e = Some s
          ∨ (countryMap !! country e = None ∧ s = country e)).
Proof.
  intros Hproto Hnp. unfold countryCell, countryValue.
  destruct (countryMap !! country e) as [label|] eqn:Hown.
  - assert (Hlisted : label ≠ "" ∧ country e ≠ "").
    { destruct (decide (country e = "AE")) as [Heq|H1];
        [rewrite Heq in *; vm_compute in Hown; by simplify_eq|].
      destruct (decide (country e = "SA")) as [Heq|H2];
        [rewrite Heq in *; vm_compute in Hown; by simplify_eq|].
      destruct (decide (country e = "EG")) as [Heq|H3];
        [rewrite Heq in *; vm_compute in Hown; by simplify_eq|].
      by rewrite countryMap_unlisted in Hown. }
    destruct Hlisted as [Hlabel Hcode].
    exists label. unfold Js.get. rewrite Hown, or_nonempty_string by done.
    split; [done|]. split; [|by left]. by split.
  - exists (country e). rewrite get_absent, or_undefined by done.
    split; [done|]. split; [done|]. by right.
Qed.

(** X10: an entity whose status is not listed (and is not the name of an
    inherited property) gets exactly the badge style of an ARCHIVED
    entity, so the two cannot be told apart by colour. *)
Theorem unlisted_status_looks_archived (e : Entity) :
  status e ≠ "ACTIVE" → status e ≠ "PENDING" → status e ≠ "ARCHIVED" →
  Js.prototype_methods !! status e = None →
  status e ≠ "__proto__" →
  statusClassName e
  = statusClassName (mkEntity (id e) (name e) (country e) "ARCHIVED" (legalForm e)
                       (createdAt e) (registrations e)).
Proof.
  intros H1 H2 H3 Hp Hq.
  pose proof (statusClassName_fallback e H1 H2 H3 Hp Hq) as Hcell.
  assert (Hclass : statusClassName e
                   = "px-2 py-1 rounded text-sm font-medium bg-gray-100 text-gray-800")
    by (unfold statusCell in Hcell; congruence).
  rewrite Hclass. reflexivity.
Qed.

Lemma verifiedCount_eq (e : Entity) : verifiedCount e = countWhereVerified (registrations e).
Proof. apply filter_verified_length. Qed.

Lemma countWhereVerified_all (rs : list Registration) :
  countWhereVerified rs = length rs ↔ Forall (λ r, reg_status r = "VERIFIED") rs.
Proof.
  induction rs as [|r rs IH]; simpl; [by split|].
  pose proof (countWhereVerified_le rs) as Hle.
  rewrite Forall_cons, <- IH.
  destruct (decide (reg_status r = "VERIFIED")) as [Hv|Hv]; simpl; split.
  - intros ?. split; [done|lia].
  - intros [_ ?]. lia.
  - intros ?. lia.
  - by intros [? _].
Qed.

Lemma countWhereVerified_none (rs : list Registration) :
  countWhereVerified rs = 0 ↔ Forall (λ r, reg_status r ≠ "VERIFIED") rs.
Proof.
  induction rs as [|r rs IH]; simpl; [by split|].
  rewrite Forall_cons, <- IH.
  destruct (decide (reg_status r = "VERIFIED")) as [Hv|Hv]; simpl; split.
  - intros ?. lia.
  - by intros [? _].
  - by intros ?.
  - by intros [_ ?].
Qed.

(** X11: the Registrations cell shows the same number on both sides of the
    slash exactly when every registration is VERIFIED, and shows zero
    verified exactly when none is. *)
Theorem verified_all_or_none (e : Entity) :
  (verifiedCount e = length (registrations e)
   ↔ Forall (λ r, reg_status r = "VERIFIED") (registrations e))
  ∧ (verifiedCount e = 0
     ↔ Forall (λ r, reg_status r ≠ "VERIFIED") (registrations e)).
Proof.
  rewrite verifiedCount_eq.
  split; [apply countWhereVerified_all|apply countWhereVerified_none].
Qed.

(** X12: two entities whose Registrations cells read the same have the
    same number of verified registrations and the same number of
    registrations: the text loses neither count. *)
Theorem registrations_text_determines_counts (e1 e2 : Entity) :
  registrationsCell e1 = registrationsCell e2 →
  verifiedCount e1 = verifiedCount e2
  ∧ length (registrations e1) = length (registrations e2).
Proof.
  unfold registrationsCell. intros [= Heq]. by apply registrationsText_inj.
Qed.

(** X13: in every row the name link and the chevron link lead to the same
    route, "/admin/entities/" followed by the entity's id as it is, and
    two entities share that route exactly when they share the id. *)
Theorem row_links_share_target (e1 e2 : Entity) :
  cellHref (nameCell e1) = Some ("/admin/entities/" +:+ id e1)
  ∧ cellHref (actionsCell e1) = cellHref (nameCell e1)
  ∧ (detailHref e1 = detailHref e2 ↔ id e1 = id e2).
Proof.
  split; [done|]. split; [done|].
  unfold detailHref. split; [|by intros ->].
  apply (inj (String.append "/admin/entities/")).
Qed.

(** ** Filter setters *)

(** X14: editing a filter stores exactly the value given; editing it again
    keeps only the last value; and writing the current value back changes
    nothing, so the cache key returns to the one it was. *)
Theorem filter_edit_last_value_wins (a : FilterAction) (v w : string) (f : Filters) :
  fieldOf a (onChange a v f) = v
  ∧ onChange a v (onChange a w f) = onChange a v f
  ∧ onChange a (fieldOf a f) f = f
  ∧ queryKey (onChange a (fieldOf a f) (onChange a v f)) = queryKey f.
Proof.
  destruct f as [s c t], a; done.
Qed.

(** X15: edits of two different filters do not disturb each other: the
    other field keeps its value, and the two edits give the same state in
    either order. *)
Theorem filter_edits_commute (a b : FilterAction) (v w : string) (f : Filters) :
  a ≠ b →
  fieldOf b (onChange a v f) = fieldOf b f
  ∧ onChange a v (onChange b w f) = onChange b w (onChange a v f).
Proof.
  intros Hab. destruct f as [s c t], a, b; done.
Qed.

(** ** More on the rendered page *)

Section PageMore.

Context (can : string → bool) (toLocaleDateString : string → string).

Lemma row_of_view (f : Filters) (q : QueryResult) (row : Tr) :
  row ∈ viewRows (EntitiesPage can toLocaleDateString f q) →
  ∃ e, e ∈ entitiesOf q
       ∧ row = renderTr toLocaleDateString e
       ∧ viewHeaders (EntitiesPage can toLocaleDateString f q)
         = map renderTh (columns toLocaleDateString).
Proof.
  unfold EntitiesPage. destruct (error q); simpl; [by intros ?%elem_of_nil|].
  unfold renderDataArea.
  destruct (bool_decide (length (entitiesOf q) = 0) && negb (isLoading q)); simpl.
  - by intros ?%elem_of_nil.
  - intros (e & -> & He)%list_elem_of_fmap. by exists e.
Qed.

(** X16: every rendered row has seven cells, one under each header in
    header order, the cell under a header being keyed "<row key>-<header
    key>". *)
Theorem row_cells_align_with_headers (f : Filters) (q : QueryResult) (row : Tr) :
  let view := EntitiesPage can toLocaleDateString f q in
  row ∈ viewRows view →
  length (tr_cells row) = 7
  ∧ length (viewHeaders view) = 7
  ∧ map td_key (tr_cells row)
    = map (λ h, tr_key row +:+ "-" +:+ th_key h) (viewHeaders view).
Proof.
  intros view Hrow. subst view.
  destruct (row_of_view f q row Hrow) as (e & _ & -> & ->). done.
Qed.

(** X17: within a rendered row no two cells have the same key, whatever
    the entity's id is. *)
Theorem row_cell_keys_distinct (f : Filters) (q : QueryResult) (row : Tr) :
  row ∈ viewRows (EntitiesPage can toLocaleDateString f q) →
  NoDup (map td_key (tr_cells row)).
Proof.
  intros Hrow. destruct (row_of_view f q row Hrow) as (e & _ & -> & _).
  change (map td_key (tr_cells (renderTr toLocaleDateString e)))
    with (String.append (id e) <$> (String.append "-" <$> (col_id <$> columns toLocaleDateString))).
  apply (NoDup_fmap_2 _), (NoDup_fmap_2 _).
  by apply (bool_decide_unpack _).
Qed.

(** X18: outside the Error state the summary line is "Loading
    entities..." while loading, and otherwise announces exactly the number
    of rows the table shows, with "entity" for one row and "entities" for
    any other number, zero included. *)
Theorem summary_counts_rendered_rows (f : Filters) (q : QueryResult) :
  error q = None →
  let view := EntitiesPage can toLocaleDateString f q in
  viewSummary view
  = Some (if isLoading q then "Loading entities..."
          else "Showing " +:+ pretty (length (viewRows view)) +:+ " entit"
               +:+ (if bool_decide (length (viewRows view) = 1) then "y" else "ies")).
Proof.
  intros Herr view. subst view. rewrite EntitiesPage_no_error by done. simpl.
  unfold renderSummary, renderDataArea.
  destruct (isLoading q); [done|].
  destruct (entitiesOf q) as [|e es]; [done|].
  simpl. by rewrite length_map.
Qed.

(** X19: the "No entities found" panel is shown exactly when there is no
    error, no record and no load in progress; in particular never while
    loading, when the table header is shown over an empty body. *)
Theorem empty_state_iff (f : Filters) (q : QueryResult) :
  viewShowsEmptyState (EntitiesPage can toLocaleDateString f q) = true
  ↔ error q = None ∧ entitiesOf q = [] ∧ isLoading q = false.
Proof.
  unfold EntitiesPage. destruct (error q); simpl; [by split; [|intros [? _]]|].
  unfold renderDataArea.
  destruct (entitiesOf q) as [|e es], (isLoading q); simpl; split; try done.
  all: by intros (_ & ? & ?).
Qed.

(** X20: the filter controls are controlled by the filter state: after a
    control's change handler ran with a value, the next render (outside
    the Error state) shows that value in that control and leaves the
    values of the other two controls as they were. *)
Theorem filter_controls_show_edits
    (f : Filters) (q : QueryResult) (a : FilterAction) (v : string) :
  error q = None →
  ∃ bar, viewFilters (EntitiesPage can toLocaleDateString (onChange a v f) q) = Some bar
         ∧ controlValue a bar = v
         ∧ Forall (λ b, b = a ∨ controlValue b bar = fieldOf b f)
             [HandleSearch; SetCountryFilter; SetStatusFilter]
         ∧ input_onChange (searchInput bar) = HandleSearch
         ∧ select_onChange (countrySelect bar) = SetCountryFilter
         ∧ select_onChange (statusSelect bar) = SetStatusFilter.
Proof.
  intros Herr. rewrite EntitiesPage_no_error by done.
  exists (renderFilters (onChange a v f)). simpl.
  split; [done|].
  destruct f as [s c t], a; simpl;
    (split; [done|]); (split; [|done]);
    rewrite !Forall_cons; (repeat split); auto using Forall_nil_2.
Qed.

End PageMore.

(** ** Concrete runs of the further properties *)

Lemma plain_filter_values_sent_unchanged_witness :
  allChars UrlEncoded.unreserved "acme" = true
  ∧ allChars UrlEncoded.unreserved "AE" = true
  ∧ allChars UrlEncoded.unreserved "ACTIVE" = true
  ∧ requestUrl (mkFilters "acme" "AE" "ACTIVE")
    = "/api/entities?search=acme&country=AE&status=ACTIVE".
Proof.
  repeat (split; [reflexivity|]).
  exact (plain_filter_values_sent_unchanged (mkFilters "acme" "AE" "ACTIVE")
           eq_refl eq_refl eq_refl).
Defined.

Lemma country_cell_empty_iff_witness :
  Js.prototype_methods !! country unlisted = None
  ∧ country unlisted ≠ "__proto__"
  ∧ ∃ s, countryCell unlisted = CValue (Js.Str s) ∧ (s = "" ↔ country unlisted = "").
Proof.
  split; [vm_compute; reflexivity|]. split; [discriminate|].
  destruct (country_cell_empty_iff unlisted) as (s & Hcell & Hempty & _);
    [vm_compute; reflexivity|discriminate|].
  exists s. split; [exact Hcell|exact Hempty].
Defined.

Lemma unlisted_status_looks_archived_witness :
  status unlisted = "SUSPENDED"
  ∧ statusClassName unlisted
    = statusClassName (mkEntity "2" "Globex" "FR" "ARCHIVED" (Some "")
                         "2024-02-01T00:00:00Z" []).
Proof.
  split; [reflexivity|].
  apply (unlisted_status_looks_archived unlisted);
    solve [discriminate | vm_compute; reflexivity].
Defined.

Lemma registrations_text_determines_counts_witness :
  registrationsCell acme = registrationsCell umbrella
  ∧ verifiedCount acme = verifiedCount umbrella
  ∧ length (registrations acme) = length (registrations umbrella).
Proof.
  split; [vm_compute; reflexivity|].
  apply (registrations_text_determines_counts acme umbrella). vm_compute. reflexivity.
Defined.

Lemma filter_edits_commute_witness :
  HandleSearch ≠ SetStatusFilter
  ∧ onChange HandleSearch "acme" (onChange SetStatusFilter "ACTIVE" initialFilters)
    = onChange SetStatusFilter "ACTIVE" (onChange HandleSearch "acme" initialFilters).
Proof.
  split; [discriminate|].
  destruct (filter_edits_commute HandleSearch SetStatusFilter "acme" "ACTIVE" initialFilters)
    as [_ Hcomm]; [discriminate|].
  exact Hcomm.
Defined.

Lemma acme_row_rendered :
  renderTr rawDate acme ∈ viewRows (EntitiesPage denyAll rawDate initialFilters twoRecords).
Proof. apply list_elem_of_fmap. exists acme. split; [reflexivity|]. repeat constructor. Defined.

Lemma row_cells_align_with_headers_witness :
  renderTr rawDate acme ∈ viewRows (EntitiesPage denyAll rawDate initialFilters twoRecords)
  ∧ map td_key (tr_cells (renderTr rawDate acme))
    = ["1-name"; "1-country"; "1-legalForm"; "1-status"; "1-registrations";
       "1-createdAt"; "1-actions"].
Proof.
  split; [exact acme_row_rendered|].
  destruct (row_cells_align_with_headers denyAll rawDate initialFilters twoRecords
              (renderTr rawDate acme) acme_row_rendered) as (_ & _ & Hkeys).
  exact Hkeys.
Defined.

Lemma row_cell_keys_distinct_witness :
  renderTr rawDate acme ∈ viewRows (EntitiesPage denyAll rawDate initialFilters twoRecords)
  ∧ NoDup (map td_key (tr_cells (renderTr rawDate acme))).
Proof.
  split; [exact acme_row_rendered|].
  exact (row_cell_keys_distinct denyAll rawDate initialFilters twoRecords
           (renderTr rawDate acme) acme_row_rendered).
Defined.

Lemma summary_counts_rendered_rows_witness :
  error twoRecords = None
  ∧ viewSummary (EntitiesPage denyAll rawDate initialFilters twoRecords)
    = Some "Showing 2 entities".
Proof.
  split; [reflexivity|].
  exact (summary_counts_rendered_rows denyAll rawDate initialFilters twoRecords eq_refl).
Defined.

Lemma filter_controls_show_edits_witness :
  error noRecords = None
  ∧ ∃ bar, viewFilters (EntitiesPage allowAll rawDate
                          (onChange SetCountryFilter "AE" initialFilters) noRecords)
           = Some bar
           ∧ select_value (countrySelect bar) = "AE".
Proof.
  split; [reflexivity|].
  destruct (filter_controls_show_edits allowAll rawDate initialFilters noRecords
              SetCountryFilter "AE" eq_refl) as (bar & Hbar & Hvalue & _).
  exists bar. split; [exact Hbar|exact Hvalue].
Defined.

Example summary_singular :
  viewSummary (EntitiesPage denyAll rawDate initialFilters
                 (mkQueryResult (Some [acme]) false None))
  = Some "Showing 1 entity".
Proof. reflexivity. Qed.

Example loading_shows_header_not_empty_state :
  let view := EntitiesPage allowAll rawDate initialFilters (mkQueryResult None true None) in
  viewShowsEmptyState view = false
  ∧ map th_text (viewHeaders view)
    = ["Business Name"; "Country"; "Legal Form"; "Status"; "Registrations"; "Created";
       "Actions"]
  ∧ viewRows view = []
  ∧ viewSummary view = Some "Loading entities...".
Proof. repeat split. Qed.
